(** * Endee RAG pipeline: a shallow embedding of the retrieval orchestration

    Modelled sources:
    - [src/src/embedding_service.py]: [EmbeddingService.chunk_document]
    - [src/src/rag_service.py]: [RAGService.initialize], [ingest_document],
      [search], [_generate_answer]
    - [src/src/rag_service.py]: [get_statistics], [list_indices]
    - [src/src/endee_client.py]: [EndeeClient.__init__], [_make_request],
      [health_check], [create_index], [list_indices], [delete_index],
      [insert], [search], [get_vector], [delete_vector], [get_index_stats]
    - [src/src/config.py]: [Settings] (defaults)
    - [src/src/main.py]: the [/health], [/api/v1/ingest],
      [/api/v1/ingest-file], [/api/v1/search], [/api/v1/statistics] and
      [/api/v1/indices] routes

    A Python [str] is a list of code points ([pystr]).  Python ints are
    unbounded, so positions are [Z].  A [while] loop runs on fuel: [None]
    (or [OutOfFuel]) means the loop had not finished after that many
    iterations.  Exceptions are values of [exn], tagged with their class
    name.  Stateful code runs in a small state/exception monad [M] whose
    state holds the uuid counter, the number of [time.time()] reads and the
    trace of calls made to the external collaborators. *)

From Stdlib Require Import ZArith List String Ascii Bool Lia.
Import ListNotations.
Open Scope Z_scope.

(* ------------------------------------------------------------------ *)
(** ** Python values *)

Definition pystr := list N.

(** String literals of the source (ASCII only) as Python strings. *)
Definition pys (s : string) : pystr := map N_of_ascii (list_ascii_of_string s).

Definition py_len (s : pystr) : Z := Z.of_nat (List.length s).

(** [s[a:b]] with Python's clamping of negative and too-large bounds. *)
Definition py_slice (s : pystr) (a b : Z) : pystr :=
  let L := py_len s in
  let norm x := if x <? 0 then Z.max 0 (x + L) else Z.min x L in
  let a' := norm a in
  let b' := norm b in
  firstn (Z.to_nat (b' - a')) (skipn (Z.to_nat a') s).

(** Python truthiness of a [str]. *)
Definition py_truthy (s : pystr) : bool :=
  match s with [] => false | _ => true end.

(** Decimal rendering of a non-negative int, as in an f-string. *)
Fixpoint digits_rev (fuel : nat) (n : N) : pystr :=
  match fuel with
  | O => []
  | S f =>
      let d := (48 + N.modulo n 10)%N in
      if (n <? 10)%N then [d] else d :: digits_rev f (N.div n 10)
  end.

Definition py_str_of_nat (n : nat) : pystr :=
  rev (digits_rev (S n) (N.of_nat n)).

Fixpoint py_join (sep : pystr) (parts : list pystr) : pystr :=
  match parts with
  | [] => []
  | [p] => p
  | p :: ps => p ++ sep ++ py_join sep ps
  end.

(** Exceptions, by class name.  [is_Exception] tells whether the class is a
    subclass of [Exception] (what [except Exception] catches); the listed
    classes derive from [BaseException] only. *)
Record exn := mkExn { exn_class : string; exn_msg : pystr }.

Definition is_Exception (e : exn) : bool :=
  negb (existsb (String.eqb (exn_class e))
          ["BaseException"; "KeyboardInterrupt"; "SystemExit";
           "GeneratorExit"; "CancelledError"]%string).

Inductive outcome (A : Type) : Type :=
| Ret (a : A)
| Raise (e : exn)
| OutOfFuel.
Arguments Ret {A} a.
Arguments Raise {A} e.
Arguments OutOfFuel {A}.

(** Values passed as keyword arguments. *)
Inductive pyval :=
| VStr (s : pystr)
| VInt (z : Z)
| VNone.

(* ------------------------------------------------------------------ *)
(** ** Configuration ([src/src/config.py]) *)

Record Settings := mkSettings {
  chunk_size : Z;
  chunk_overlap : Z;
  top_k_results : Z;
  openai_max_tokens : Z }.

Definition default_settings : Settings := mkSettings 512 50 5 500.

(* ------------------------------------------------------------------ *)
(** ** Chunker ([EmbeddingService.chunk_document]) *)

Record chunk_metadata := mkMeta {
  document_name : pystr;
  chunk_index : nat;
  original_length : Z;
  start_pos : Z;
  end_pos : Z }.

(** A chunk dict [{"id", "content", "metadata"}]; the id is the number of
    the [uuid4()] draw that produced it. *)
Record chunk := mkChunk {
  chunk_id : nat;
  chunk_content : pystr;
  metadata : chunk_metadata }.

(** The [while i < len(content)] loop; [chunks.append] is [chunks ++ [c]],
    [chunk_index] is [len(chunks)] before the append. *)
Fixpoint chunk_loop (fuel : nat) (doc_name content : pystr)
    (chunk_size step : Z) (i : Z) (chunks : list chunk) (uuid : nat)
    : option (list chunk * nat) :=
  match fuel with
  | O => None
  | S fuel' =>
      if i <? py_len content then
        let end_ := Z.min (i + chunk_size) (py_len content) in
        let c := mkChunk uuid (py_slice content i end_)
                   (mkMeta doc_name (List.length chunks) (py_len content) i end_) in
        let chunks' := chunks ++ [c] in
        if py_len content <=? end_ then Some (chunks', S uuid)
        else chunk_loop fuel' doc_name content chunk_size step (i + step) chunks' (S uuid)
      else Some (chunks, uuid)
  end.

Definition chunk_document (fuel : nat) (doc_name content : pystr)
    (chunk_size overlap : Z) (uuid : nat) : option (list chunk * nat) :=
  let step := chunk_size - overlap in
  chunk_loop fuel doc_name content chunk_size step 0 [] uuid.

(** Predicates on a chunk list: consecutive spans leave no gap, and the
    span of the last chunk. *)
Fixpoint chained (cs : list chunk) : Prop :=
  match cs with
  | c :: ((c' :: _) as tl) =>
      start_pos (metadata c') <= end_pos (metadata c) /\ chained tl
  | _ => True
  end.

Definition chunk_indices (cs : list chunk) : list nat :=
  map (fun c => chunk_index (metadata c)) cs.

Definition chunk_starts (cs : list chunk) : list Z :=
  map (fun c => start_pos (metadata c)) cs.

(** Glues the chunks back: the first [step] characters of every chunk but
    the last, then the whole last chunk. *)
Fixpoint reassemble (step : Z) (cs : list chunk) : pystr :=
  match cs with
  | [] => []
  | [c] => chunk_content c
  | c :: rest => firstn (Z.to_nat step) (chunk_content c) ++ reassemble step rest
  end.

(** Python's binding of keyword arguments to the parameters
    [(document_name, content, chunk_size=512, overlap=50)]: an unknown
    keyword raises [TypeError] before the body runs. *)
Definition chunk_document_params : list string :=
  ["document_name"; "content"; "chunk_size"; "overlap"]%string.

Fixpoint unexpected_kwarg (params : list string) (kw : list (string * pyval))
    : option string :=
  match kw with
  | [] => None
  | (k, _) :: kw' =>
      if existsb (String.eqb k) params then unexpected_kwarg params kw' else Some k
  end.

Fixpoint kw_lookup (k : string) (kw : list (string * pyval)) : option pyval :=
  match kw with
  | [] => None
  | (k', v) :: kw' => if String.eqb k k' then Some v else kw_lookup k kw'
  end.

Definition type_error (msg : string) : exn := mkExn "TypeError" (pys msg).

(** Binds the keywords; on success returns
    [(document_name, content, chunk_size, overlap)].  Messages name the
    function by its qualified name, as CPython 3.10 and later do.  A value of another
    type than the body expects makes the body fail with [TypeError] at its
    first use. *)
Definition bind_chunk_document_kwargs (kw : list (string * pyval))
    : pystr * pystr * Z * Z + exn :=
  match unexpected_kwarg chunk_document_params kw with
  | Some k =>
      inr (type_error ("EmbeddingService.chunk_document() got an unexpected keyword argument '"
                        ++ k ++ "'"))
  | None =>
      match kw_lookup "document_name" kw, kw_lookup "content" kw with
      | Some (VStr d), Some (VStr c) =>
          let cs := match kw_lookup "chunk_size" kw with
                    | None => Some 512 | Some (VInt z) => Some z | _ => None end in
          let ov := match kw_lookup "overlap" kw with
                    | None => Some 50 | Some (VInt z) => Some z | _ => None end in
          match cs, ov with
          | Some cs, Some ov => inl (d, c, cs, ov)
          | _, _ => inr (type_error "unsupported operand type(s)")
          end
      | None, _ | _, None =>
          inr (type_error "EmbeddingService.chunk_document() missing required argument")
      | _, _ => inr (type_error "object of this type has no len()")
      end
  end.

(* ------------------------------------------------------------------ *)
(** ** The state/exception monad *)

(** Calls made to the external collaborators, in order. *)
Inductive event :=
| EvEmbedText
| EvEmbedTexts (n : nat)
| EvInsert (index : pystr) (n : nat)
| EvSearch (index : pystr) (k : Z)
| EvLLM (prompt : pystr)
| EvHealthCheck
| EvSleep (seconds : Z)
| EvCreateIndex (name : pystr) (dimension : Z) (metric : pystr).

Record st := mkSt {
  next_uuid : nat;   (** number of [uuid4()] draws so far *)
  clock_ix : nat;    (** number of [time.time()] reads so far *)
  events : list event }.

Definition M (A : Type) : Type := st -> outcome A * st.

Definition ret {A} (a : A) : M A := fun s => (Ret a, s).

Definition bind {A B} (m : M A) (k : A -> M B) : M B :=
  fun s => match m s with
           | (Ret a, s') => k a s'
           | (Raise e, s') => (Raise e, s')
           | (OutOfFuel, s') => (OutOfFuel, s')
           end.

Notation "x <- m ;; k" := (bind m (fun x => k))
  (at level 61, m at next level, right associativity).

Definition raise {A} (e : exn) : M A := fun s => (Raise e, s).

Definition lift {A} (o : outcome A) : M A := fun s => (o, s).

Definition emit (ev : event) : M unit :=
  fun s => (Ret tt, mkSt (next_uuid s) (clock_ix s) (events s ++ [ev])).

(** [try: m except Exception as e: h e] *)
Definition try_except_Exception {A} (m : M A) (h : exn -> M A) : M A :=
  fun s => match m s with
           | (Raise e, s') => if is_Exception e then h e s' else (Raise e, s')
           | r => r
           end.

(** bare [try: m except: h e]: catches every exception class *)
Definition try_except_all {A} (m : M A) (h : exn -> M A) : M A :=
  fun s => match m s with
           | (Raise e, s') => h e s'
           | r => r
           end.

(* ------------------------------------------------------------------ *)
(** ** Endee client ([src/src/endee_client.py]) *)

(** What [self.session.get(...)] does: answer with a status code, or raise. *)
Inductive get_result :=
| Status (code : Z)
| GetRaised (e : exn).

(** [EndeeClient.health_check]: a bare [except:] around the request. *)
Definition health_check (r : get_result) : M bool :=
  try_except_all
    (match r with
     | Status code => ret (code =? 200)
     | GetRaised e => raise e
     end)
    (fun _ => ret false).

(** What [_make_request] does: return, raise [HTTPError] (from
    [raise_for_status]) with the status code, or raise another exception. *)
Inductive request_result :=
| ReqOk
| ReqHTTPError (status : Z)
| ReqOtherError (e : exn).

Definition http_error (status : Z) : exn := mkExn "HTTPError" (pys "HTTP error").

(** [EndeeClient.create_index]: a 409 answer (index exists) is swallowed. *)
Definition create_index (req : request_result) (name : pystr) (dimension : Z)
    (metric : pystr) : M unit :=
  _ <- emit (EvCreateIndex name dimension metric) ;;
  match req with
  | ReqOk => ret tt
  | ReqHTTPError status => if status =? 409 then ret tt else raise (http_error status)
  | ReqOtherError e => raise e
  end.

(** JSON values as [requests] encodes and decodes them.  An object is the
    list of its keys with their values, keys distinct.  Numbers are kept
    as integers: no property below looks inside them. *)
#[warnings="-register-all"]
Inductive json :=
| JNull
| JBool (b : bool)
| JNum (n : Z)
| JStr (s : pystr)
| JArr (items : list json)
| JObj (fields : list (pystr * json)).

Fixpoint pystr_eqb (a b : pystr) : bool :=
  match a, b with
  | [], [] => true
  | x :: a', y :: b' => N.eqb x y && pystr_eqb a' b'
  | _, _ => false
  end.

(** [d[key]] / [key in d] on a dict given as its list of items. *)
Fixpoint assoc {A : Type} (key : pystr) (items : list (pystr * A)) : option A :=
  match items with
  | [] => None
  | (k, v) :: items' => if pystr_eqb key k then Some v else assoc key items'
  end.

(** Python truthiness of a decoded JSON value. *)
Definition json_truthy (j : json) : bool :=
  match j with
  | JNull => false
  | JBool b => b
  | JNum n => negb (n =? 0)
  | JStr s => py_truthy s
  | JArr l => match l with [] => false | _ => true end
  | JObj fs => match fs with [] => false | _ => true end
  end.

(** [str.lstrip(ch)] and [str.rstrip(ch)] for a one-character argument. *)
Fixpoint lstrip (ch : N) (s : pystr) : pystr :=
  match s with
  | c :: s' => if N.eqb c ch then lstrip ch s' else s
  | [] => []
  end.

Definition rstrip (ch : N) (s : pystr) : pystr := rev (lstrip ch (rev s)).

Definition slash : N := 47.

(** The attributes set by [EndeeClient.__init__]; [headers] is the dict
    in insertion order. *)
Record endee_client := mkClient {
  base_url : pystr;
  auth_token : option pystr;
  timeout : Z;
  headers : list (pystr * pystr) }.

(** [EndeeClient.__init__]; the session and the retry adapter it mounts
    are modelled by [session] and [adapter_send] below. *)
Definition endee_client_init (base : pystr) (auth : option pystr) (tmo : Z)
    : endee_client :=
  let hdrs := [(pys "Content-Type", pys "application/json")] in
  let hdrs := match auth with
              | Some t => if py_truthy t then hdrs ++ [(pys "Authorization", t)] else hdrs
              | None => hdrs
              end in
  mkClient (rstrip slash base) auth tmo hdrs.

(** A response: status code, whether it has a [Retry-After] header,
    [response.text], and what [response.json()] gives ([None]: the body is
    not JSON). *)
Record http_response := mkHttpResponse {
  status_code : Z;
  retry_after : bool;
  text : pystr;
  json_body : option json }.

Inductive session_result :=
| Answered (r : http_response)
| SessionRaised (e : exn).

(** One attempt of [self.session.request(method=, url=, json=, headers=,
    timeout=)]: [sess method url json headers timeout n] is what attempt [n]
    (0 for the first) meets.  A raised exception ends the request: it stands
    for what the session raises once the adapter is done with a
    connection-level failure. *)
Definition session : Type :=
  pystr -> pystr -> option json -> list (pystr * pystr) -> Z -> nat -> session_result.

(** The [Retry(total=3, backoff_factor=0.5,
    status_forcelist=(500, 502, 503, 504))] mounted by [__init__], with
    urllib3's defaults: only the [allowed_methods] are retried, a
    [Retry-After] answer with status 413, 429 or 503 is retried while
    retries are left, and running out on a retried status raises
    ([raise_on_status]), which [requests] reports as [RetryError]. *)
Definition retry_total : nat := 3.

Definition status_forcelist : list Z := [500; 502; 503; 504].

Definition retry_allowed_methods : list pystr :=
  map pys ["DELETE"; "GET"; "HEAD"; "OPTIONS"; "PUT"; "TRACE"]%string.

Definition retry_after_status_codes : list Z := [413; 429; 503].

Definition in_forcelist (code : Z) : bool := existsb (Z.eqb code) status_forcelist.

(** [Retry.is_retry(method, status_code, has_retry_after)]; [total] is the
    number of retries left. *)
Definition is_retry (method : pystr) (r : http_response) (total : nat) : bool :=
  existsb (pystr_eqb method) retry_allowed_methods &&
  (in_forcelist (status_code r) ||
   (negb (Nat.eqb total 0) && retry_after r
    && existsb (Z.eqb (status_code r)) retry_after_status_codes)).

Definition retry_error : exn := mkExn "RetryError" (pys "Max retries exceeded").

(** The request through the adapter: attempt [attempt] with [total]
    retries left. *)
Fixpoint adapter_send (sess : session) (method url : pystr) (data : option json)
    (hdrs : list (pystr * pystr)) (tmo : Z) (attempt total : nat) : session_result :=
  match sess method url data hdrs tmo attempt with
  | SessionRaised e => SessionRaised e
  | Answered r =>
      if is_retry method r total then
        match total with
        | O => SessionRaised retry_error
        | S t => adapter_send sess method url data hdrs tmo (S attempt) t
        end
      else Answered r
  end.

(** How [_make_request] fails: [raise_for_status] raising [HTTPError]
    with the response's status, or another exception. *)
Inductive request_error :=
| HTTPErrorStatus (status : Z)
| RequestFailed (e : exn).

Definition request_error_exn (err : request_error) : exn :=
  match err with
  | HTTPErrorStatus status => http_error status
  | RequestFailed e => e
  end.

Definition json_decode_error : exn := mkExn "JSONDecodeError" (pys "Expecting value").

(** [Response.raise_for_status] raises for 4xx and 5xx codes. *)
Definition raise_for_status_fails (code : Z) : bool := (400 <=? code) && (code <? 600).

(** [EndeeClient._make_request]. *)
Definition make_request (c : endee_client) (sess : session) (method endpoint : pystr)
    (data : option json) : json + request_error :=
  match adapter_send sess method (base_url c ++ endpoint) data (headers c) (timeout c)
          0 retry_total with
  | SessionRaised e => inr (RequestFailed e)
  | Answered r =>
      if raise_for_status_fails (status_code r) then inr (HTTPErrorStatus (status_code r))
      else if py_truthy (text r) then
        match json_body r with
        | Some j => inl j
        | None => inr (RequestFailed json_decode_error)
        end
      else inl (JObj [])
  end.

Definition attribute_error (msg : string) : exn := mkExn "AttributeError" (pys msg).

(** [response.get(key, default)]; only a dict has [.get]. *)
Definition json_get (j : json) (key : pystr) (default : json) : outcome json :=
  match j with
  | JObj fs => Ret (match assoc key fs with Some v => v | None => default end)
  | _ => Raise (attribute_error "object has no attribute 'get'")
  end.

Definition index_endpoint (name suffix : pystr) : pystr :=
  pys "/api/v1/index/" ++ name ++ suffix.

(** [EndeeClient.list_indices]. *)
Definition client_list_indices (c : endee_client) (sess : session) : outcome json :=
  match make_request c sess (pys "GET") (pys "/api/v1/index/list") None with
  | inl response => json_get response (pys "indices") (JArr [])
  | inr err => Raise (request_error_exn err)
  end.

(** [EndeeClient.delete_index]. *)
Definition client_delete_index (c : endee_client) (sess : session) (name : pystr)
    : outcome unit :=
  match make_request c sess (pys "DELETE") (index_endpoint name []) None with
  | inl _ => Ret tt
  | inr err => Raise (request_error_exn err)
  end.

Definition key_error (key : string) : exn := mkExn "KeyError" (pys key).

(** One element of the [insert] payload's list comprehension: [v["id"]],
    [v["values"]], and the metadata only when [v] has that key. *)
Definition insert_entry (v : list (pystr * json)) : outcome json :=
  match assoc (pys "id") v with
  | None => Raise (key_error "id")
  | Some id =>
      match assoc (pys "values") v with
      | None => Raise (key_error "values")
      | Some values =>
          Ret (JObj ([(pys "id", id); (pys "values", values)]
                     ++ match assoc (pys "metadata") v with
                        | Some m => [(pys "metadata", m)]
                        | None => []
                        end))
      end
  end.

Fixpoint insert_entries (vs : list (list (pystr * json))) : outcome (list json) :=
  match vs with
  | [] => Ret []
  | v :: vs' =>
      match insert_entry v with
      | Ret e =>
          match insert_entries vs' with
          | Ret es => Ret (e :: es)
          | Raise x => Raise x
          | OutOfFuel => OutOfFuel
          end
      | Raise x => Raise x
      | OutOfFuel => OutOfFuel
      end
  end.

(** [EndeeClient.insert]: the payload is built before the request. *)
Definition client_insert (c : endee_client) (sess : session) (index_name : pystr)
    (vectors : list (list (pystr * json))) : outcome unit :=
  match insert_entries vectors with
  | Ret entries =>
      match make_request c sess (pys "POST") (index_endpoint index_name (pys "/insert"))
              (Some (JObj [(pys "vectors", JArr entries)])) with
      | inl _ => Ret tt
      | inr err => Raise (request_error_exn err)
      end
  | Raise x => Raise x
  | OutOfFuel => OutOfFuel
  end.

(** The payload of [EndeeClient.search]: ["filter"] only if [filter_] is
    truthy. *)
Definition search_payload (query_vector : json) (k : Z) (filter_ : option json) : json :=
  JObj ([(pys "query", query_vector); (pys "k", JNum k)]
        ++ match filter_ with
           | Some f => if json_truthy f then [(pys "filter", f)] else []
           | None => []
           end).

(** [EndeeClient.search]. *)
Definition client_search (c : endee_client) (sess : session) (index_name : pystr)
    (query_vector : json) (k : Z) (filter_ : option json) : outcome json :=
  match make_request c sess (pys "POST") (index_endpoint index_name (pys "/search"))
          (Some (search_payload query_vector k filter_)) with
  | inl response => json_get response (pys "results") (JArr [])
  | inr err => Raise (request_error_exn err)
  end.

(** [EndeeClient.get_vector]: a 404 gives [None] ([JNull]). *)
Definition client_get_vector (c : endee_client) (sess : session) (index_name vector_id : pystr)
    : outcome json :=
  match make_request c sess (pys "GET") (index_endpoint index_name (pys "/vector/" ++ vector_id))
          None with
  | inl response => json_get response (pys "vector") JNull
  | inr (HTTPErrorStatus status) =>
      if status =? 404 then Ret JNull else Raise (http_error status)
  | inr (RequestFailed e) => Raise e
  end.

(** [EndeeClient.delete_vector]. *)
Definition client_delete_vector (c : endee_client) (sess : session) (index_name vector_id : pystr)
    : outcome unit :=
  match make_request c sess (pys "DELETE") (index_endpoint index_name (pys "/vector/" ++ vector_id))
          None with
  | inl _ => Ret tt
  | inr err => Raise (request_error_exn err)
  end.

(** [EndeeClient.get_index_stats]: the decoded body, whatever its shape. *)
Definition client_get_index_stats (c : endee_client) (sess : session) (index_name : pystr)
    : outcome json :=
  match make_request c sess (pys "GET") (index_endpoint index_name (pys "/stats")) None with
  | inl response => Ret response
  | inr err => Raise (request_error_exn err)
  end.

(* ------------------------------------------------------------------ *)
(** ** Records exchanged with the collaborators *)

Record stored_vector (vec : Type) := mkStored {
  sv_id : nat;
  sv_values : vec;
  sv_metadata : chunk_metadata;
  sv_content : pystr;
  sv_source_url : option pystr }.
Arguments mkStored {vec}.

(** A search hit; [sr_content] is [metadata["content"]] when present. *)
Record search_result := mkResult {
  sr_id : pystr;
  sr_score : Z;
  sr_content : option pystr }.

Record ingestion_result := mkIngestion {
  ir_document_name : pystr;
  chunks_added : nat;
  total_content_length : Z }.

Record retrieval_response := mkResponse {
  rr_query : pystr;
  rr_results : list search_result;
  generated_answer : option pystr;
  retrieval_time_ms : Z;
  total_time_ms : Z;
  result_count : nat }.

(** [HealthResponse] of [src/src/main.py]. *)
Record health_response := mkHealth {
  hr_status : pystr;
  rag_initialized : bool;
  endee_connected : bool }.

(** The HTTP answer of a FastAPI route: the returned model, the
    [HTTPException(status_code, detail)] it raises, or FastAPI's 422
    answer when request validation finds required fields missing (their
    names, in declaration order). *)
Inductive route_result (A : Type) :=
| Resp (a : A)
| HTTPErr (status : Z) (detail : pystr)
| ValidationErr (missing : list pystr).
Arguments Resp {A} a.
Arguments HTTPErr {A} status detail.
Arguments ValidationErr {A} missing.

(* ------------------------------------------------------------------ *)
(** ** The orchestrator ([RAGService]) *)

Section Pipeline.

(** Embedding vectors are opaque here. *)
Variable vec : Type.
(** [settings] of [src/src/config.py]. *)
Variable settings : Settings.
(** [self.index_name]. *)
Variable index_name : pystr.
(** Iteration budget of [chunk_document]'s loop. *)
Variable chunk_fuel : nat.
(** [model.encode(text).tolist()] and [model.encode(texts).tolist()]. *)
Variable embed_text_impl : pystr -> outcome vec.
Variable embed_texts_impl : list pystr -> outcome (list vec).
(** [EndeeClient.insert] and [EndeeClient.search] as seen by the caller. *)
Variable store_insert : pystr -> list (stored_vector vec) -> outcome unit.
Variable store_search : pystr -> vec -> Z -> outcome (list search_result).
(** [self.openai_client]: [None] when no API key is set; otherwise the
    chat-completion call, given the user message, returning
    [response.choices[0].message.content] (possibly [None]) or raising. *)
Variable openai_client : option (pystr -> outcome (option pystr)).
(** [clock n] is the value of the [n]-th [time.time()] read. *)
Variable clock : nat -> Z.
(** [health_responses k]: what the health-check request of attempt [k] of
    [initialize] meets. *)
Variable health_responses : nat -> get_result.
(** What the [POST /api/v1/index/create] request of [initialize] meets. *)
Variable create_index_response : request_result.
(** [self.embedding_service.dimension]. *)
Variable dimension : Z.

Definition time_time : M Z :=
  fun s => (Ret (clock (clock_ix s)), mkSt (next_uuid s) (S (clock_ix s)) (events s)).

Definition embed_text (t : pystr) : M vec :=
  _ <- emit EvEmbedText ;; lift (embed_text_impl t).

Definition embed_texts (ts : list pystr) : M (list vec) :=
  _ <- emit (EvEmbedTexts (List.length ts)) ;; lift (embed_texts_impl ts).

Definition endee_insert (idx : pystr) (vs : list (stored_vector vec)) : M unit :=
  _ <- emit (EvInsert idx (List.length vs)) ;; lift (store_insert idx vs).

Definition endee_search (idx : pystr) (q : vec) (k : Z) : M (list search_result) :=
  _ <- emit (EvSearch idx k) ;; lift (store_search idx q k).

(** [self.embedding_service.chunk_document] called with the keyword arguments [kw], drawing ids from the
    uuid counter. *)
Definition call_chunk_document (kw : list (string * pyval)) : M (list chunk) :=
  match bind_chunk_document_kwargs kw with
  | inr e => raise e
  | inl (d, c, cs, ov) =>
      fun s => match chunk_document chunk_fuel d c cs ov (next_uuid s) with
               | Some (chunks, u) => (Ret chunks, mkSt u (clock_ix s) (events s))
               | None => (OutOfFuel, s)
               end
  end.

(** [RAGService.ingest_document]: note the keyword [chunk_overlap=]. *)
Definition ingest_document (doc_name content : pystr) (source_url : option pystr)
    : M ingestion_result :=
  chunks <- call_chunk_document
              [("document_name", VStr doc_name); ("content", VStr content);
               ("chunk_size", VInt (chunk_size settings));
               ("chunk_overlap", VInt (chunk_overlap settings))]%string ;;
  let texts := map chunk_content chunks in
  embeddings <- embed_texts texts ;;
  let vectors := map (fun ce => mkStored (chunk_id (fst ce)) (snd ce)
                                   (metadata (fst ce)) (chunk_content (fst ce))
                                   source_url)
                     (combine chunks embeddings) in
  _ <- endee_insert index_name vectors ;;
  ret (mkIngestion doc_name (List.length vectors) (py_len content)).

(** FastAPI's reading of the form fields [document_name: str = Form(...)]
    and [content: str = Form(...)]: an empty string in a form field counts
    as absent, so a required one is reported missing. *)
Definition form_missing (doc_name content : pystr) : list pystr :=
  (if py_truthy doc_name then [] else [pys "document_name"])
  ++ (if py_truthy content then [] else [pys "content"]).

(** An empty [source_url: Optional[str] = Form(None)] takes the default. *)
Definition form_optional (v : option pystr) : option pystr :=
  match v with
  | Some s => if py_truthy s then Some s else None
  | None => None
  end.

(** The [POST /api/v1/ingest] route of [src/src/main.py], given the form
    values sent; [initialized] is [rag_service] being set.  Request
    validation runs before the route body. *)
Definition ingest_route (initialized : bool) (doc_name content : pystr)
    (source_url : option pystr) : M (route_result ingestion_result) :=
  match form_missing doc_name content with
  | (_ :: _) as missing => ret (ValidationErr missing)
  | [] =>
    let source_url := form_optional source_url in
    if negb initialized then ret (HTTPErr 503 (pys "RAG service not initialized"))
    else if negb (py_truthy doc_name) || negb (py_truthy content) then
      ret (HTTPErr 400 (pys "document_name and content are required"))
    else
      fun s => match ingest_document doc_name content source_url s with
               | (Ret r, s') => (Ret (Resp r), s')
               | (Raise e, s') =>
                   if is_Exception e then (Ret (HTTPErr 500 (exn_msg e)), s')
                   else (Raise e, s')
               | (OutOfFuel, s') => (OutOfFuel, s')
               end
  end.

(** [f"[Document {i}]:\n{content[:300]}..."] when [content] is truthy. *)
Definition context_part (i : nat) (r : search_result) : option pystr :=
  let content := match sr_content r with Some c => c | None => [] end in
  if py_truthy content then
    Some (pys "[Document " ++ py_str_of_nat i ++ pys "]:" ++ [10%N]
          ++ py_slice content 0 300 ++ pys "...")
  else None.

Fixpoint context_parts (i : nat) (rs : list search_result) : list pystr :=
  match rs with
  | [] => []
  | r :: rs' =>
      match context_part i r with
      | Some p => p :: context_parts (S i) rs'
      | None => context_parts (S i) rs'
      end
  end.

Definition answer_prompt (query : pystr) (results : list search_result) : pystr :=
  let context := py_join [10%N; 10%N] (context_parts 1 (firstn 3 results)) in
  pys "Based on the following documents, answer the query:" ++ [10%N; 10%N]
  ++ pys "Query: " ++ query ++ [10%N; 10%N] ++ pys "Context:" ++ [10%N] ++ context.

(** [RAGService._generate_answer]. *)
Definition generate_answer (query : pystr) (results : list search_result) : M pystr :=
  match openai_client with
  | None => ret (pys "LLM not configured")
  | Some create =>
      let prompt := answer_prompt query results in
      try_except_Exception
        (_ <- emit (EvLLM prompt) ;;
         content <- lift (create prompt) ;;
         ret (match content with
              | Some c => if py_truthy c then c else pys "Unable to generate answer"
              | None => pys "Unable to generate answer"
              end))
        (fun _ => ret (pys "Error generating answer"))
  end.

(** [top_k = top_k or settings.top_k_results] *)
Definition resolve_top_k (top_k : option Z) : Z :=
  match top_k with
  | Some k => if k =? 0 then top_k_results settings else k
  | None => top_k_results settings
  end.

(** [RAGService.search]. *)
Definition search (query : pystr) (top_k : option Z) (use_llm : bool)
    : M retrieval_response :=
  start_time <- time_time ;;
  let k := resolve_top_k top_k in
  query_embedding <- embed_text query ;;
  retrieval_start <- time_time ;;
  results <- endee_search index_name query_embedding k ;;
  t_retrieved <- time_time ;;
  let retrieval_time := (t_retrieved - retrieval_start) * 1000 in
  generated <- (if use_llm && negb (match results with [] => true | _ => false end)
                   && (match openai_client with Some _ => true | None => false end)
                then a <- generate_answer query results ;; ret (Some a)
                else ret None) ;;
  t_end <- time_time ;;
  let total_time := (t_end - start_time) * 1000 in
  ret (mkResponse query results generated retrieval_time total_time
         (List.length results)).

(** The [for attempt in range(max_retries)] loop of [initialize]:
    [true] when it [break]s on a healthy answer. *)
Fixpoint wait_for_endee (attempt remaining : nat) : M bool :=
  match remaining with
  | O => ret false
  | S r =>
      _ <- emit EvHealthCheck ;;
      healthy <- health_check (health_responses attempt) ;;
      if healthy then ret true
      else _ <- emit (EvSleep 1) ;; wait_for_endee (S attempt) r
  end.

Definition max_retries : nat := 10.

(** [RAGService.initialize]; the [else] of the [for] loop raises. *)
Definition initialize : M unit :=
  healthy <- wait_for_endee 0 max_retries ;;
  if healthy then create_index create_index_response index_name dimension (pys "cosine")
  else raise (mkExn "RuntimeError" (pys "Endee server is not responding")).

(** The exception raised by every [ingest_document] call. *)
Definition chunk_overlap_error : exn :=
  type_error "EmbeddingService.chunk_document() got an unexpected keyword argument 'chunk_overlap'".

(** The health probe answered with status 200. *)
Definition probe_healthy (r : get_result) : bool :=
  match r with Status code => code =? 200 | GetRaised _ => false end.

(** Trace of [k] unhealthy probes: a check then a one-second sleep each. *)
Definition probe_trace (k : nat) : list event :=
  List.concat (repeat [EvHealthCheck; EvSleep 1] k).

(** [self.endee_client] and its [requests] session, as used by
    [get_statistics] and [list_indices]. *)
Variable rag_client : endee_client.
Variable rag_session : session.
(** [bytes.decode("utf-8")]: [None] when it raises [UnicodeDecodeError]. *)
Variable utf8_decode : list Byte.byte -> option pystr.




Definition not_initialized {A} : M (route_result A) :=
  ret (HTTPErr 503 (pys "RAG service not initialized")).

(** A route body under [try: ... except ...]: [handler e] is the
    [HTTPException] of the first clause catching [e], if any. *)
Definition route_try {A} (m : M A) (handler : exn -> option (route_result A))
    : M (route_result A) :=
  fun s => match m s with
           | (Ret r, s') => (Ret (Resp r), s')
           | (Raise e, s') =>
               match handler e with
               | Some resp => (Ret resp, s')
               | None => (Raise e, s')
               end
           | (OutOfFuel, s') => (OutOfFuel, s')
           end.

(** [except Exception as e: raise HTTPException(500, str(e))]. *)
Definition internal_error {A} (e : exn) : option (route_result A) :=
  if is_Exception e then Some (HTTPErr 500 (exn_msg e)) else None.

(** The [GET /health] route; [probe] is what the client's health request
    meets. *)
Definition health_route (initialized : bool) (probe : get_result)
    : M (route_result health_response) :=
  if negb initialized then not_initialized
  else
    endee_connected <- health_check probe ;;
    ret (Resp (mkHealth (if endee_connected then pys "healthy" else pys "degraded")
                 true endee_connected)).

(** The [POST /api/v1/ingest-file] route: no emptiness check. *)
Definition ingest_file_route (initialized : bool) (filename : option pystr)
    (raw : list Byte.byte) (source_url : option pystr)
    : M (route_result ingestion_result) :=
  if negb initialized then not_initialized
  else
    let handler e :=
      if String.eqb (exn_class e) "UnicodeDecodeError"
      then Some (HTTPErr 400 (pys "File must be valid UTF-8 text"))
      else internal_error e in
    route_try
      (content_str <- lift (match utf8_decode raw with
                            | Some c => Ret c
                            | None => Raise (mkExn "UnicodeDecodeError" (pys "invalid utf-8"))
                            end) ;;
       let name := match filename with
                   | Some f => if py_truthy f then f else pys "document"
                   | None => pys "document"
                   end in
       ingest_document name content_str source_url)
      handler.

(** The [POST /api/v1/search] route. *)
Definition search_route (initialized : bool) (query : pystr) (top_k : option Z)
    (use_llm : bool) : M (route_result retrieval_response) :=
  if negb initialized then not_initialized
  else if negb (py_truthy query) then ret (HTTPErr 400 (pys "query is required"))
  else route_try (search query top_k use_llm) internal_error.




(* ================================================================== *)
(** ** Proofs *)

Lemma last_cons_default (A : Type) (x : A) (l : list A) (d d' : A) :
  last (x :: l) d = last (x :: l) d'.
Proof.
  revert x; induction l as [|y l IH]; intro x; [reflexivity|].
  simpl. specialize (IH y). simpl in IH. exact IH.
Qed.

Lemma py_slice_whole (s : pystr) : py_slice s 0 (py_len s) = s.
Proof.
  unfold py_slice, py_len.
  replace (0 <? 0) with false by reflexivity.
  replace (Z.of_nat (List.length s) <? 0) with false
    by (symmetry; apply Z.ltb_ge; lia).
  rewrite Z.min_r by lia. rewrite Z.min_l by lia.
  rewrite Z.sub_0_r, Nat2Z.id. simpl. apply firstn_all.
Qed.

(** One iteration suffices when the content fits in one chunk. *)
Lemma chunk_loop_single (fuel : nat) doc content cs step uuid :
  0 < py_len content <= cs -> (0 < fuel)%nat ->
  chunk_loop fuel doc content cs step 0 [] uuid =
    Some ([mkChunk uuid content (mkMeta doc 0 (py_len content) 0 (py_len content))],
          S uuid).
Proof.
  intros [Hpos Hle] Hf. destruct fuel as [|fuel]; [lia|].
  simpl. replace (0 <? py_len content) with true by (symmetry; apply Z.ltb_lt; lia).
  rewrite Z.min_r by lia.
  rewrite Z.leb_refl, py_slice_whole. reflexivity.
Qed.

Lemma chunk_loop_spec (fuel : nat) doc content cs step i acc u r u' :
  0 < step <= cs -> 0 <= i < py_len content ->
  chunk_loop fuel doc content cs step i acc u = Some (r, u') ->
  exists c rest,
    r = acc ++ c :: rest /\
    start_pos (metadata c) = i /\
    end_pos (metadata (last (c :: rest) c)) = py_len content /\
    chunk_indices (c :: rest) = seq (List.length acc) (List.length (c :: rest)) /\
    chained (c :: rest).
Proof.
  revert i acc u. induction fuel as [|fuel IH]; intros i acc u Hstep Hi Hrun;
    [discriminate|].
  simpl in Hrun.
  replace (i <? py_len content) with true in Hrun by (symmetry; apply Z.ltb_lt; lia).
  destruct (py_len content <=? Z.min (i + cs) (py_len content)) eqn:Hend.
  - injection Hrun as <- <-. apply Z.leb_le in Hend.
    eexists; exists []; repeat split; simpl; try reflexivity; lia.
  - apply Z.leb_gt in Hend.
    destruct (IH (i + step) _ _ Hstep ltac:(lia) Hrun)
      as (c' & rest & Hr & Hs & He & Hidx & Hch).
    eexists; exists (c' :: rest).
    split; [rewrite Hr, <- app_assoc; reflexivity|].
    split; [reflexivity|].
    split; [rewrite <- He; do 2 f_equal; apply (last_cons_default _ c' rest)|].
    split.
    + unfold chunk_indices in *. simpl. f_equal.
      rewrite length_app in Hidx. simpl in Hidx. rewrite Nat.add_1_r in Hidx.
      exact Hidx.
    + simpl. split; [rewrite Hs; lia | exact Hch].
Qed.

Lemma chunk_loop_terminates (n : nat) doc content cs step i acc u :
  0 < step -> py_len content - i <= Z.of_nat n ->
  exists r, chunk_loop (S n) doc content cs step i acc u = Some r.
Proof.
  revert i acc u. induction n as [|n IH]; intros i acc u Hstep Hn.
  - simpl. replace (i <? py_len content) with false by (symmetry; apply Z.ltb_ge; lia).
    eauto.
  - remember (S n) as m. simpl. subst m.
    destruct (i <? py_len content) eqn:Hlt; [|eauto].
    destruct (py_len content <=? Z.min (i + cs) (py_len content)); [eauto|].
    apply IH; [exact Hstep|]. apply Z.ltb_lt in Hlt. lia.
Qed.

(** With a non-positive step and a content longer than [chunk_size], the
    cursor never moves right and no chunk reaches the end. *)
Lemma chunk_loop_stuck (fuel : nat) doc content cs step i acc u :
  step <= 0 -> 0 < py_len content -> cs < py_len content -> i <= 0 ->
  chunk_loop fuel doc content cs step i acc u = None.
Proof.
  revert i acc u. induction fuel as [|fuel IH]; intros i acc u Hstep Hpos Hcs Hi;
    [reflexivity|].
  simpl.
  replace (i <? py_len content) with true by (symmetry; apply Z.ltb_lt; lia).
  replace (py_len content <=? Z.min (i + cs) (py_len content)) with false
    by (symmetry; apply Z.leb_gt; lia).
  apply IH; lia.
Qed.

(** ** Chunker claims *)

(** C10: a non-empty content no longer than [chunk_size] is chunked in one
    iteration into the single chunk [[0, len(content))] with index 0,
    whatever the overlap (the loop breaks before advancing the cursor). *)
Theorem chunk_document_single_chunk (fuel : nat) doc content cs ov uuid :
  0 < py_len content <= cs -> (0 < fuel)%nat ->
  chunk_document fuel doc content cs ov uuid =
    Some ([mkChunk uuid content
             (mkMeta doc 0 (py_len content) 0 (py_len content))], S uuid).
Proof. intros H Hf. apply chunk_loop_single; assumption. Qed.

(** C2: for [chunk_size > overlap >= 0] the loop terminates, and every
    result has indices [0..n-1] in order, consecutive spans without gap, no
    chunk for an empty content, and otherwise a first chunk starting at 0 and
    a last chunk ending at [len(content)]. *)
Theorem chunk_document_coverage (fuel : nat) doc content cs ov uuid :
  0 <= ov < cs ->
  (exists r, chunk_document (S (List.length content)) doc content cs ov uuid = Some r) /\
  (forall chunks u, chunk_document fuel doc content cs ov uuid = Some (chunks, u) ->
     chunk_indices chunks = seq 0 (List.length chunks) /\
     chained chunks /\
     (content = [] -> chunks = []) /\
     (content <> [] ->
        exists c rest, chunks = c :: rest /\ start_pos (metadata c) = 0 /\
                       end_pos (metadata (last chunks c)) = py_len content)).
Proof.
  intros Hov. split.
  - apply chunk_loop_terminates; unfold py_len; lia.
  - intros chunks u Hrun. unfold chunk_document in Hrun.
    destruct content as [|x xs].
    + destruct fuel as [|fuel]; [discriminate|].
      simpl in Hrun. injection Hrun as <- _.
      repeat split; try reflexivity. intros H; exfalso; apply H; reflexivity.
    + assert (Hlen : 0 < py_len (x :: xs)) by (unfold py_len; simpl; lia).
      destruct (chunk_loop_spec fuel doc (x :: xs) cs (cs - ov) 0 [] uuid chunks u
                  ltac:(lia) ltac:(lia) Hrun)
        as (c & rest & Hr & Hs & He & Hidx & Hch).
      simpl in Hr. subst chunks.
      split; [exact Hidx|]. split; [exact Hch|]. split; [discriminate|].
      intros _. exists c, rest. auto.
Qed.

(** C1 (corrected): with [overlap >= chunk_size] nothing is validated and
    nothing is raised: an empty content gives no chunk, a non-empty content
    of length at most [chunk_size] gives the single chunk [[0, len)], and a
    longer content makes the loop run forever (no iteration budget ends it). *)
Theorem chunk_document_degenerate (fuel : nat) doc content cs ov uuid :
  cs <= ov ->
  (content = [] -> (0 < fuel)%nat ->
     chunk_document fuel doc content cs ov uuid = Some ([], uuid)) /\
  (0 < py_len content <= cs -> (0 < fuel)%nat ->
     chunk_document fuel doc content cs ov uuid =
       Some ([mkChunk uuid content
                (mkMeta doc 0 (py_len content) 0 (py_len content))], S uuid)) /\
  (0 < py_len content -> cs < py_len content ->
     chunk_document fuel doc content cs ov uuid = None).
Proof.
  intros Hov. split; [|split].
  - intros -> Hf. destruct fuel as [|fuel]; [lia|]. reflexivity.
  - intros H Hf. apply chunk_loop_single; assumption.
  - intros Hpos Hcs. apply chunk_loop_stuck; lia.
Qed.

(** C1 counterexample: with [chunk_size = overlap = 1] the content "a" is
    chunked into one chunk; no error is raised before a chunk is produced. *)
Lemma chunk_document_degenerate_returns_chunk :
  chunk_document 1 (pys "doc") (pys "a") 1 1 0 =
    Some ([mkChunk 0 (pys "a") (mkMeta (pys "doc") 0 1 0 1)], 1%nat).
Proof. reflexivity. Qed.

(** ** Ingestion *)

Lemma ingest_document_raises doc content url s :
  ingest_document doc content url s = (Raise chunk_overlap_error, s).
Proof. reflexivity. Qed.

(** C4 (code bug): [ingest_document] passes [chunk_overlap=] to
    [chunk_document], whose parameter is [overlap]: every call raises
    [TypeError] before any chunk, embedding or insert, so no call ever
    returns a [chunks_added]. *)
Theorem ingest_document_always_type_error doc content url s :
  ingest_document doc content url s = (Raise chunk_overlap_error, s).
Proof. apply ingest_document_raises. Qed.


(** ** Health check and initialization *)

Lemma health_check_run r s : health_check r s = (Ret (probe_healthy r), s).
Proof. destruct r; reflexivity. Qed.

(** C9: [health_check] returns a boolean for every outcome of the request,
    raised exceptions of any class included, and [true] exactly on status
    200. *)
Theorem health_check_total r s :
  exists b, health_check r s = (Ret b, s) /\ (b = true <-> r = Status 200).
Proof.
  exists (probe_healthy r). split; [apply health_check_run|].
  destruct r as [code|e]; simpl.
  - rewrite Z.eqb_eq. split; [intros ->; reflexivity | congruence].
  - split; discriminate.
Qed.

Lemma wait_for_endee_unhealthy (r a : nat) s :
  (forall j, (j < r)%nat -> probe_healthy (health_responses (a + j)) = false) ->
  wait_for_endee a r s =
    (Ret false, mkSt (next_uuid s) (clock_ix s) (events s ++ probe_trace r)).
Proof.
  revert a s. induction r as [|r IH]; intros a [u c ev] H.
  - simpl. rewrite app_nil_r. reflexivity.
  - simpl. unfold bind at 1. simpl. unfold bind at 1.
    rewrite health_check_run.
    replace (probe_healthy (health_responses a)) with false
      by (symmetry; rewrite <- (Nat.add_0_r a); apply H; lia).
    unfold bind, emit. simpl.
    rewrite IH by (intros j Hj; replace (S a + j)%nat with (a + S j)%nat by lia; apply H; lia).
    simpl. rewrite <- !app_assoc. reflexivity.
Qed.

Lemma wait_for_endee_healthy (j r a : nat) s :
  (j < r)%nat ->
  (forall i, (i < j)%nat -> probe_healthy (health_responses (a + i)) = false) ->
  probe_healthy (health_responses (a + j)) = true ->
  wait_for_endee a r s =
    (Ret true, mkSt (next_uuid s) (clock_ix s)
                 (events s ++ probe_trace j ++ [EvHealthCheck])).
Proof.
  revert j a s. induction r as [|r IH]; intros j a [u c ev] Hj Hbefore Hok; [lia|].
  simpl. unfold bind at 1. simpl. unfold bind at 1.
  rewrite health_check_run.
  destruct j as [|j].
  - rewrite Nat.add_0_r in Hok. rewrite Hok. reflexivity.
  - replace (probe_healthy (health_responses a)) with false
      by (symmetry; rewrite <- (Nat.add_0_r a); apply Hbefore; lia).
    unfold bind, emit. simpl.
    rewrite (IH j (S a)); try lia.
    + simpl. rewrite <- !app_assoc. reflexivity.
    + intros i Hi. replace (S a + i)%nat with (a + S i)%nat by lia. apply Hbefore. lia.
    + replace (S a + j)%nat with (a + S j)%nat by lia. exact Hok.
Qed.

(** C8 (corrected): [initialize] makes at most [max_retries = 10] health
    probes, sleeping one second after each unhealthy one.  If none is
    healthy it raises [RuntimeError("Endee server is not responding")].  If
    probe [j] is the first healthy one, it stops probing and calls
    [create_index(index_name, dimension, "cosine")], which succeeds exactly
    when the request succeeds or answers 409 (index already exists). *)
Theorem initialize_polls s :
  ((forall k, (k < max_retries)%nat -> probe_healthy (health_responses k) = false) ->
   initialize s =
     (Raise (mkExn "RuntimeError" (pys "Endee server is not responding")),
      mkSt (next_uuid s) (clock_ix s) (events s ++ probe_trace max_retries))) /\
  (forall j, (j < max_retries)%nat ->
   (forall i, (i < j)%nat -> probe_healthy (health_responses i) = false) ->
   probe_healthy (health_responses j) = true ->
   snd (initialize s) =
     mkSt (next_uuid s) (clock_ix s)
       (events s ++ probe_trace j ++
        [EvHealthCheck; EvCreateIndex index_name dimension (pys "cosine")]) /\
   (fst (initialize s) = Ret tt <->
    create_index_response = ReqOk \/ create_index_response = ReqHTTPError 409)).
Proof.
  split.
  - intros H. unfold initialize, bind.
    rewrite (wait_for_endee_unhealthy max_retries 0 s) by (intros j Hj; apply H; lia).
    reflexivity.
  - intros j Hj Hbefore Hok. unfold initialize, bind.
    rewrite (wait_for_endee_healthy j max_retries 0 s Hj Hbefore Hok).
    unfold create_index, bind, emit. simpl. rewrite <- !app_assoc. simpl.
    split; [destruct create_index_response as [|st0|e];
            [|destruct (st0 =? 409)|]; reflexivity|].
    destruct create_index_response as [|st0|e]; simpl.
    + split; auto.
    + destruct (st0 =? 409) eqn:E.
      * apply Z.eqb_eq in E. subst. split; auto.
      * apply Z.eqb_neq in E. split; [discriminate|].
        intros [H|H]; congruence.
    + split; [discriminate|]. intros [H|H]; discriminate.
Qed.

(** ** Search *)








(** C5 (corrected): with [use_llm = true], and the embedding and the store
    search succeeding, [search] returns a response with the store's results
    and does not raise: [generated_answer] is [None] when no Answerer is
    configured (or no result came back), and the string
    ["Error generating answer"] when the configured Answerer raises an
    [Exception]. *)
Theorem search_llm_degrades query top_k qv results s :
  embed_text_impl query = Ret qv ->
  store_search index_name qv (resolve_top_k top_k) = Ret results ->
  (openai_client = None \/ results = [] ->
     exists resp s', search query top_k true s = (Ret resp, s') /\
       rr_results resp = results /\ generated_answer resp = None) /\
  (forall create e, openai_client = Some create -> results <> [] ->
     create (answer_prompt query results) = Raise e -> is_Exception e = true ->
     exists resp s', search query top_k true s = (Ret resp, s') /\
       rr_results resp = results /\
       generated_answer resp = Some (pys "Error generating answer")).
Proof.
  intros He Hs. split.
  - intros Hcase.
    unfold search, bind, time_time, embed_text, endee_search, emit, lift. simpl.
    rewrite He. simpl. rewrite Hs. simpl.
    destruct Hcase as [Hn | ->].
    + rewrite Hn. rewrite !andb_false_r. simpl.
      eexists; eexists; split; [reflexivity|]; split; reflexivity.
    + simpl. eexists; eexists; split; [reflexivity|]; split; reflexivity.
  - intros create e Hc Hne Hcr Hexc.
    unfold search, bind, time_time, embed_text, endee_search, emit, lift. simpl.
    rewrite He. simpl. rewrite Hs. simpl.
    destruct results as [|r rs]; [contradiction|]. rewrite Hc. simpl.
    unfold generate_answer. rewrite Hc.
    unfold try_except_Exception, bind, emit, lift, ret. simpl.
    rewrite Hcr. simpl. rewrite Hexc. simpl.
    eexists; eexists; split; [reflexivity|]; split; reflexivity.
Qed.


(** ** Further chunker properties *)

Lemma py_slice_in_bounds (s : pystr) (a b : Z) :
  0 <= a <= b -> b <= py_len s ->
  py_slice s a b = firstn (Z.to_nat (b - a)) (skipn (Z.to_nat a) s).
Proof.
  intros Hab Hb. unfold py_slice.
  replace (a <? 0) with false by (symmetry; apply Z.ltb_ge; lia).
  replace (b <? 0) with false by (symmetry; apply Z.ltb_ge; lia).
  rewrite (Z.min_l a) by lia. rewrite (Z.min_l b) by lia. reflexivity.
Qed.

Lemma firstn_app_skipn (A : Type) (n m : nat) (l : list A) :
  firstn n l ++ firstn m (skipn n l) = firstn (n + m) l.
Proof.
  revert l. induction n as [|n IH]; intros [|x l]; simpl; try reflexivity.
  - rewrite firstn_nil. reflexivity.
  - f_equal. apply IH.
Qed.

Lemma py_slice_app (s : pystr) (a b c : Z) :
  0 <= a <= b -> b <= c -> c <= py_len s ->
  py_slice s a b ++ py_slice s b c = py_slice s a c.
Proof.
  intros Hab Hbc Hc.
  rewrite !py_slice_in_bounds by lia.
  replace (Z.to_nat b) with (Z.to_nat (b - a) + Z.to_nat a)%nat by lia.
  rewrite <- skipn_skipn, firstn_app_skipn.
  f_equal. lia.
Qed.

Lemma chunk_loop_shape (fuel : nat) doc content cs step i acc u r u' :
  0 < step <= cs -> 0 <= i < py_len content ->
  chunk_loop fuel doc content cs step i acc u = Some (r, u') ->
  exists rest, r = acc ++ rest /\ rest <> [] /\
    u' = (u + List.length rest)%nat /\
    reassemble step rest = py_slice content i (py_len content) /\
    forall k c, nth_error rest k = Some c ->
      chunk_id c = (u + k)%nat /\
      start_pos (metadata c) = i + Z.of_nat k * step /\
      start_pos (metadata c) < py_len content /\
      end_pos (metadata c) = Z.min (start_pos (metadata c) + cs) (py_len content) /\
      chunk_content c = py_slice content (start_pos (metadata c)) (end_pos (metadata c)) /\
      document_name (metadata c) = doc /\
      original_length (metadata c) = py_len content /\
      ((S k < List.length rest)%nat -> start_pos (metadata c) + cs < py_len content).
Proof.
  revert i acc u. induction fuel as [|fuel IH]; intros i acc u Hstep Hi Hrun;
    [discriminate|].
  simpl in Hrun.
  replace (i <? py_len content) with true in Hrun by (symmetry; apply Z.ltb_lt; lia).
  destruct (py_len content <=? Z.min (i + cs) (py_len content)) eqn:Hend.
  - injection Hrun as <- <-. apply Z.leb_le in Hend.
    eexists. split; [reflexivity|]. split; [discriminate|].
    split; [simpl; lia|]. split.
    + simpl. f_equal. lia.
    + intros [|k] c Hk; simpl in Hk; [|destruct k; discriminate].
      injection Hk as <-. simpl. repeat split; try lia.
  - apply Z.leb_gt in Hend.
    destruct (IH (i + step) _ _ Hstep ltac:(lia) Hrun)
      as (rest & Hr & Hne & Hu & Hre & Hnth).
    set (c := mkChunk u (py_slice content i (Z.min (i + cs) (py_len content)))
                (mkMeta doc (List.length acc) (py_len content) i
                   (Z.min (i + cs) (py_len content)))).
    exists (c :: rest). split; [rewrite Hr, <- app_assoc; reflexivity|].
    split; [discriminate|]. split; [simpl; lia|]. split.
    + destruct rest as [|c' rest']; [contradiction|].
      change (reassemble step (c :: c' :: rest'))
        with (firstn (Z.to_nat step) (chunk_content c) ++ reassemble step (c' :: rest')).
      rewrite Hre. unfold c; simpl chunk_content.
      rewrite Z.min_l by lia.
      rewrite (py_slice_in_bounds content i (i + cs)) by lia.
      rewrite firstn_firstn, Nat.min_l by lia.
      replace (Z.to_nat step) with (Z.to_nat (i + step - i)) by (f_equal; lia).
      rewrite <- (py_slice_in_bounds content i (i + step)) by lia.
      apply py_slice_app; lia.
    + intros [|k] c0 Hk.
      * simpl in Hk. injection Hk as <-. simpl.
        repeat split; try lia.
      * simpl in Hk. destruct (Hnth k c0 Hk) as (Hid & Hs & Hlt & He & Hc & Hd & Ho & Hl).
        repeat split; try assumption.
        -- rewrite Hid. lia.
        -- rewrite Hs. lia.
        -- intros H. apply Hl. simpl in H. lia.
Qed.

(** Running the whole chunker on valid parameters. *)
Lemma chunk_document_shape (fuel : nat) doc content cs ov uuid chunks u' :
  0 <= ov < cs ->
  chunk_document fuel doc content cs ov uuid = Some (chunks, u') ->
  u' = (uuid + List.length chunks)%nat /\
  reassemble (cs - ov) chunks = content /\
  forall k c, nth_error chunks k = Some c ->
    chunk_id c = (uuid + k)%nat /\
    start_pos (metadata c) = Z.of_nat k * (cs - ov) /\
    start_pos (metadata c) < py_len content /\
    end_pos (metadata c) = Z.min (start_pos (metadata c) + cs) (py_len content) /\
    chunk_content c = py_slice content (start_pos (metadata c)) (end_pos (metadata c)) /\
    document_name (metadata c) = doc /\
    original_length (metadata c) = py_len content /\
    ((S k < List.length chunks)%nat -> start_pos (metadata c) + cs < py_len content).
Proof.
  intros Hov Hrun. unfold chunk_document in Hrun.
  destruct content as [|x xs].
  - destruct fuel as [|fuel]; [discriminate|].
    simpl in Hrun. injection Hrun as <- <-.
    split; [simpl; lia|]. split; [reflexivity|].
    intros k c Hk. destruct k; discriminate.
  - assert (Hlen : 0 < py_len (x :: xs)) by (unfold py_len; simpl; lia).
    destruct (chunk_loop_shape fuel doc (x :: xs) cs (cs - ov) 0 [] uuid chunks u'
                ltac:(lia) ltac:(lia) Hrun) as (rest & Hr & _ & Hu & Hre & Hnth).
    simpl in Hr. subst rest.
    split; [exact Hu|]. split.
    + rewrite Hre, py_slice_whole. reflexivity.
    + intros k c Hk. destruct (Hnth k c Hk) as (Hid & Hs & Hrest).
      split; [exact Hid|]. split; [rewrite Hs; lia|]. exact Hrest.
Qed.

(** X1: for [chunk_size > overlap >= 0], chunk [k] starts at
    [k * (chunk_size - overlap)], spans a non-empty range inside the content
    of at most [chunk_size] characters, and every chunk but the last has
    exactly [chunk_size] characters. *)
Theorem chunk_document_positions (fuel : nat) doc content cs ov uuid chunks u' :
  0 <= ov < cs ->
  chunk_document fuel doc content cs ov uuid = Some (chunks, u') ->
  forall k c, nth_error chunks k = Some c ->
    start_pos (metadata c) = Z.of_nat k * (cs - ov) /\
    0 <= start_pos (metadata c) < end_pos (metadata c) /\
    end_pos (metadata c) <= py_len content /\
    end_pos (metadata c) - start_pos (metadata c) <= cs /\
    ((S k < List.length chunks)%nat ->
       end_pos (metadata c) = start_pos (metadata c) + cs).
Proof.
  intros Hov Hrun k c Hk.
  destruct (chunk_document_shape fuel doc content cs ov uuid chunks u' Hov Hrun)
    as (_ & _ & Hnth).
  destruct (Hnth k c Hk) as (_ & Hs & Hin & He & _ & _ & _ & Hl).
  split; [exact Hs|]. split; [split; [rewrite Hs; nia | rewrite He; lia]|].
  split; [rewrite He; lia|]. split; [rewrite He; lia|].
  intros H. specialize (Hl H). rewrite He. lia.
Qed.

(** X2: each chunk's content is the slice [content[start_pos:end_pos]], and
    its metadata carries the document name and the full content length. *)
Theorem chunk_document_contents (fuel : nat) doc content cs ov uuid chunks u' :
  0 <= ov < cs ->
  chunk_document fuel doc content cs ov uuid = Some (chunks, u') ->
  forall c, In c chunks ->
    chunk_content c = py_slice content (start_pos (metadata c)) (end_pos (metadata c)) /\
    document_name (metadata c) = doc /\
    original_length (metadata c) = py_len content.
Proof.
  intros Hov Hrun c Hin.
  destruct (In_nth_error _ _ Hin) as [k Hk].
  destruct (chunk_document_shape fuel doc content cs ov uuid chunks u' Hov Hrun)
    as (_ & _ & Hnth).
  destruct (Hnth k c Hk) as (_ & _ & _ & _ & Hc & Hd & Ho & _). auto.
Qed.

(** X3: chunk [k] gets the [k]-th fresh uuid of the call, so the ids of one
    call are pairwise distinct, and the call draws exactly one uuid per
    chunk. *)
Theorem chunk_document_ids (fuel : nat) doc content cs ov uuid chunks u' :
  0 <= ov < cs ->
  chunk_document fuel doc content cs ov uuid = Some (chunks, u') ->
  map chunk_id chunks = seq uuid (List.length chunks) /\
  u' = (uuid + List.length chunks)%nat.
Proof.
  intros Hov Hrun.
  destruct (chunk_document_shape fuel doc content cs ov uuid chunks u' Hov Hrun)
    as (Hu & _ & Hnth).
  split; [|exact Hu].
  apply nth_error_ext. intros k.
  rewrite nth_error_map.
  destruct (nth_error chunks k) as [c|] eqn:Hk.
  - destruct (Hnth k c Hk) as (Hid & _).
    assert (k < List.length chunks)%nat by (apply nth_error_Some; congruence).
    rewrite nth_error_seq. apply Nat.ltb_lt in H. rewrite H. simpl. rewrite Hid. reflexivity.
  - apply nth_error_None in Hk. symmetry. apply nth_error_None.
    rewrite length_seq. exact Hk.
Qed.

(** X4: the content is recovered from the chunks: the first
    [chunk_size - overlap] characters of every chunk but the last, followed
    by the last chunk, give back the whole content. *)
Theorem chunk_document_reassemble (fuel : nat) doc content cs ov uuid chunks u' :
  0 <= ov < cs ->
  chunk_document fuel doc content cs ov uuid = Some (chunks, u') ->
  reassemble (cs - ov) chunks = content.
Proof.
  intros Hov Hrun.
  destruct (chunk_document_shape fuel doc content cs ov uuid chunks u' Hov Hrun)
    as (_ & Hre & _). exact Hre.
Qed.

(** *** The Endee client *)

Lemma lstrip_spec (ch : N) (s : pystr) :
  exists n, s = repeat ch n ++ lstrip ch s /\ forall t, lstrip ch s <> ch :: t.
Proof.
  induction s as [|c s IH]; simpl.
  - exists O. split; [reflexivity | discriminate].
  - destruct (N.eqb c ch) eqn:E.
    + apply N.eqb_eq in E. subst c. destruct IH as [n [Hn Hne]].
      exists (S n). split; [simpl; f_equal; exact Hn | exact Hne].
    + exists O. split; [reflexivity|].
      intros t H. injection H as ->. rewrite N.eqb_refl in E. discriminate.
Qed.

(** X5: [base_url.rstrip("/")] removes exactly the trailing slashes: the
    stored base URL does not end with ["/"], and the given one is it
    followed by slashes only. *)
Theorem endee_client_init_base_url base auth tmo :
  let b := base_url (endee_client_init base auth tmo) in
  (forall pre, b <> pre ++ [slash]) /\ exists n, base = b ++ repeat slash n.
Proof.
  simpl. unfold rstrip.
  destruct (lstrip_spec slash (rev base)) as [n [Hn Hne]]. split.
  - intros pre H. apply (f_equal (@rev N)) in H.
    rewrite rev_involutive, rev_app_distr in H. simpl in H. exact (Hne _ H).
  - exists n. set (l := lstrip slash (rev base)) in *.
    rewrite <- (rev_involutive base), Hn, rev_app_distr, rev_repeat. reflexivity.
Qed.

(** X6: [__init__] always sends [Content-Type: application/json]; an
    [Authorization] header is present exactly when the token is a non-empty
    string, and its value is the raw token (no scheme prefix). *)
Theorem endee_client_init_headers base auth tmo :
  let h := headers (endee_client_init base auth tmo) in
  assoc (pys "Content-Type") h = Some (pys "application/json") /\
  forall v, assoc (pys "Authorization") h = Some v <-> auth = Some v /\ v <> [].
Proof.
  simpl. destruct auth as [t|]; [destruct t as [|x t]|]; simpl;
    (split; [reflexivity|]); intros v; split.
  - discriminate.
  - intros [H1 H2]. injection H1 as <-. contradiction.
  - intros H. injection H as <-. split; [reflexivity | discriminate].
  - intros [H1 _]. injection H1 as <-. reflexivity.
  - discriminate.
  - intros [H1 _]. discriminate.
Qed.

Lemma adapter_send_constant sess m u d h t r attempt total :
  (forall n, sess m u d h t n = Answered r) ->
  adapter_send sess m u d h t attempt total =
    if existsb (pystr_eqb m) retry_allowed_methods && in_forcelist (status_code r)
    then SessionRaised retry_error else Answered r.
Proof.
  intros Hs. revert attempt.
  induction total as [|total IH]; intros attempt; cbn [adapter_send]; rewrite Hs;
    unfold is_retry.
  - destruct (existsb (pystr_eqb m) retry_allowed_methods), (in_forcelist (status_code r));
      reflexivity.
  - rewrite IH.
    destruct (existsb (pystr_eqb m) retry_allowed_methods), (in_forcelist (status_code r));
      cbn [andb orb negb Nat.eqb]; try reflexivity.
    destruct (retry_after r && existsb (Z.eqb (status_code r)) retry_after_status_codes);
      reflexivity.
Qed.

Lemma in_forcelist_fails code :
  in_forcelist code = true -> raise_for_status_fails code = true.
Proof.
  unfold in_forcelist, raise_for_status_fails. simpl.
  intros H. repeat (apply orb_true_iff in H; destruct H as [H|H]);
    try (apply Z.eqb_eq in H; subst code; reflexivity); discriminate.
Qed.

Lemma retried_methods :
  existsb (pystr_eqb (pys "GET")) retry_allowed_methods = true /\
  existsb (pystr_eqb (pys "DELETE")) retry_allowed_methods = true /\
  existsb (pystr_eqb (pys "POST")) retry_allowed_methods = false.
Proof. repeat split. Qed.

(** X7: when the server answers with a non-error status and either an
    empty body or a JSON object without the expected key, [list_indices]
    and [search] return an empty list and [get_vector] returns [None]. *)
Theorem client_missing_key_defaults c sess r name qv k filter_ vector_id :
  (forall m u d h t n, sess m u d h t n = Answered r) ->
  raise_for_status_fails (status_code r) = false ->
  text r = [] \/
  (exists fs, json_body r = Some (JObj fs) /\ assoc (pys "indices") fs = None /\
              assoc (pys "results") fs = None /\ assoc (pys "vector") fs = None) ->
  client_list_indices c sess = Ret (JArr []) /\
  client_search c sess name qv k filter_ = Ret (JArr []) /\
  client_get_vector c sess name vector_id = Ret JNull.
Proof.
  intros Hs Hst Hb.
  assert (Hf : in_forcelist (status_code r) = false).
  { destruct (in_forcelist (status_code r)) eqn:F; [|reflexivity].
    rewrite (in_forcelist_fails _ F) in Hst. discriminate. }
  unfold client_list_indices, client_search, client_get_vector, make_request.
  rewrite !(adapter_send_constant sess _ _ _ _ _ r) by (intros; apply Hs).
  rewrite Hf, !andb_false_r, Hst.
  destruct Hb as [Ht | [fs [Hj [Hi [Hr Hv]]]]].
  - rewrite Ht. repeat split; reflexivity.
  - destruct (text r) as [|x t]; [repeat split; reflexivity|].
    simpl. rewrite Hj. simpl. rewrite Hi, Hr, Hv. repeat split; reflexivity.
Qed.

(** X8: when the server answers every attempt with the same 4xx or 5xx
    status, the POST methods ([insert], [search]) raise [HTTPError]; the
    GET and DELETE methods are retried by the mounted adapter on 500, 502,
    503 and 504 and end in [RetryError], and raise [HTTPError] on any other
    error status, except [get_vector], which returns [None] on 404. *)
Theorem client_error_status c sess r name vector_id qv k filter_ vs entries :
  (forall m u d h t n, sess m u d h t n = Answered r) ->
  raise_for_status_fails (status_code r) = true ->
  insert_entries vs = Ret entries ->
  let get_error := if in_forcelist (status_code r) then retry_error
                   else http_error (status_code r) in
  client_insert c sess name vs = Raise (http_error (status_code r)) /\
  client_search c sess name qv k filter_ = Raise (http_error (status_code r)) /\
  client_list_indices c sess = Raise get_error /\
  client_delete_index c sess name = Raise get_error /\
  client_delete_vector c sess name vector_id = Raise get_error /\
  client_get_index_stats c sess name = Raise get_error /\
  client_get_vector c sess name vector_id =
    (if in_forcelist (status_code r) then Raise retry_error
     else if status_code r =? 404 then Ret JNull else Raise (http_error (status_code r))).
Proof.
  intros Hs Hst Hv get_error. destruct retried_methods as [HG [HD HP]].
  unfold client_list_indices, client_delete_index, client_insert, client_search,
    client_delete_vector, client_get_index_stats, client_get_vector, make_request.
  rewrite Hv, !(adapter_send_constant sess _ _ _ _ _ r) by (intros; apply Hs).
  rewrite HG, HD, HP. simpl andb. unfold get_error.
  destruct (in_forcelist (status_code r)); rewrite Hst; repeat split; reflexivity.
Qed.

Lemma insert_entry_spec v e :
  insert_entry v = Ret e ->
  exists id values, assoc (pys "id") v = Some id /\ assoc (pys "values") v = Some values /\
    e = JObj ([(pys "id", id); (pys "values", values)]
              ++ match assoc (pys "metadata") v with
                 | Some m => [(pys "metadata", m)] | None => [] end).
Proof.
  unfold insert_entry.
  destruct (assoc (pys "id") v) as [id|]; [|discriminate].
  destruct (assoc (pys "values") v) as [values|]; [|discriminate].
  intros H. injection H as <-. exists id, values. repeat split; reflexivity.
Qed.

(** X9: the [insert] payload has one entry per given vector, in the same
    order; each entry carries that vector's ["id"] and ["values"], and a
    ["metadata"] key exactly when the vector has one, with its value. *)
Theorem insert_entries_preserve vs es :
  insert_entries vs = Ret es ->
  List.length es = List.length vs /\
  forall n v e, nth_error vs n = Some v -> nth_error es n = Some e ->
    exists fs, e = JObj fs /\
      assoc (pys "id") fs = assoc (pys "id") v /\ assoc (pys "id") v <> None /\
      assoc (pys "values") fs = assoc (pys "values") v /\
      assoc (pys "values") v <> None /\
      assoc (pys "metadata") fs = assoc (pys "metadata") v.
Proof.
  revert es. induction vs as [|v vs IH]; intros es H; simpl in H.
  - injection H as <-. split; [reflexivity|]. intros [|n] ? ? Hn; discriminate.
  - destruct (insert_entry v) as [e| |] eqn:Ev; try discriminate.
    destruct (insert_entries vs) as [es'| |]; try discriminate.
    injection H as <-. destruct (IH es' eq_refl) as [Hlen Hall].
    split; [simpl; f_equal; exact Hlen|].
    intros [|n] v' e' Hv' He'; simpl in Hv', He'.
    + injection Hv' as <-. injection He' as <-.
      destruct (insert_entry_spec v e Ev) as [id [values [Hid [Hval ->]]]].
      eexists. split; [reflexivity|]. simpl.
      rewrite Hid, Hval. repeat split; try discriminate.
      destruct (assoc (pys "metadata") v); reflexivity.
    + exact (Hall n v' e' Hv' He').
Qed.

Lemma insert_entries_key_error vs :
  (exists v, In v vs /\ (assoc (pys "id") v = None \/ assoc (pys "values") v = None)) ->
  exists key, (key = "id" \/ key = "values")%string /\ insert_entries vs = Raise (key_error key).
Proof.
  induction vs as [|v vs IH]; intros [w [Hin Hbad]]; [destruct Hin|].
  simpl. destruct (insert_entry v) as [e|x|] eqn:Ev.
  - destruct Hin as [<-|Hin].
    + destruct (insert_entry_spec v e Ev) as [id [values [Hid [Hval _]]]].
      rewrite Hid, Hval in Hbad. destruct Hbad; discriminate.
    + destruct IH as [key [Hk Hr]]; [exists w; split; assumption|].
      rewrite Hr. exists key. split; [exact Hk | reflexivity].
  - unfold insert_entry in Ev.
    destruct (assoc (pys "id") v); [destruct (assoc (pys "values") v)|];
      try discriminate; injection Ev as <-; eexists; split; try reflexivity; auto.
  - unfold insert_entry in Ev.
    destruct (assoc (pys "id") v); [destruct (assoc (pys "values") v)|]; discriminate.
Qed.

(** X10: if some vector given to [insert] lacks ["id"] or ["values"],
    building the payload raises [KeyError] and no request is sent: the
    outcome is the same whatever the session would answer. *)
Theorem client_insert_key_error c name vs :
  (exists v, In v vs /\ (assoc (pys "id") v = None \/ assoc (pys "values") v = None)) ->
  exists key, (key = "id" \/ key = "values")%string /\
    forall sess, client_insert c sess name vs = Raise (key_error key).
Proof.
  intros H. destruct (insert_entries_key_error vs H) as [key [Hk Hr]].
  exists key. split; [exact Hk|]. intros sess. unfold client_insert. rewrite Hr. reflexivity.
Qed.

(** *** Statistics, search and the routes *)




(** X12: a search that does not ask for an answer (or finds nothing, or has
    no LLM client) makes exactly one embedding call and one store search
    with [k = top_k or settings.top_k_results], reads the clock four times,
    never calls the LLM, and returns the store's results unchanged with
    their count. *)
Theorem search_without_llm query top_k use_llm qv rs s :
  embed_text_impl query = Ret qv ->
  store_search index_name qv (resolve_top_k top_k) = Ret rs ->
  use_llm = false \/ rs = [] \/ openai_client = None ->
  let i := clock_ix s in
  search query top_k use_llm s =
    (Ret (mkResponse query rs None ((clock (S (S i)) - clock (S i)) * 1000)
            ((clock (S (S (S i))) - clock i) * 1000) (List.length rs)),
     mkSt (next_uuid s) (S (S (S (S i))))
       (events s ++ [EvEmbedText; EvSearch index_name (resolve_top_k top_k)])).
Proof.
  intros He Hs Hno i.
  assert (Hc : use_llm && negb (match rs with [] => true | _ => false end)
               && (match openai_client with Some _ => true | None => false end) = false).
  { destruct Hno as [-> | [-> | ->]]; [reflexivity | destruct use_llm; reflexivity |].
    destruct use_llm, rs; reflexivity. }
  unfold search, bind, time_time, embed_text, endee_search, emit, lift, ret. simpl.
  rewrite He, Hs. simpl. rewrite Hc. simpl. rewrite <- app_assoc. reflexivity.
Qed.


Lemma context_parts_length i rs : (List.length (context_parts i rs) <= List.length rs)%nat.
Proof.
  revert i. induction rs as [|r rs IH]; intros i; simpl; [lia|].
  destruct (context_part i r); simpl; specialize (IH (S i)); lia.
Qed.

Lemma py_slice_prefix (c : pystr) (n : nat) :
  py_slice c 0 (Z.of_nat n) = firstn n c.
Proof.
  unfold py_slice, py_len. cbv zeta.
  replace (0 <? 0) with false by reflexivity.
  replace (Z.of_nat n <? 0) with false by (symmetry; apply Z.ltb_ge; lia).
  replace (Z.min 0 (Z.of_nat (List.length c))) with 0 by lia. simpl skipn.
  destruct (Nat.le_gt_cases (List.length c) n).
  - rewrite Z.min_r by lia. rewrite Z.sub_0_r, Nat2Z.id, firstn_all.
    symmetry. apply firstn_all2. exact H.
  - rewrite Z.min_l by lia. rewrite Z.sub_0_r, Nat2Z.id. reflexivity.
Qed.

(** X14: only the top three results reach the LLM prompt (results past
    the third never change it, and there are at most three context parts),
    and each part carries at most the first 300 characters of a non-empty
    content. *)
Theorem answer_prompt_top_three q rs :
  answer_prompt q rs = answer_prompt q (firstn 3 rs) /\
  (List.length (context_parts 1 (firstn 3 rs)) <= 3)%nat /\
  forall i r p, context_part i r = Some p ->
    exists c, sr_content r = Some c /\ c <> [] /\
      p = pys "[Document " ++ py_str_of_nat i ++ pys "]:" ++ [10%N]
          ++ firstn 300 c ++ pys "...".
Proof.
  split; [unfold answer_prompt; rewrite firstn_firstn; reflexivity|]. split.
  - pose proof (context_parts_length 1 (firstn 3 rs)).
    pose proof (firstn_le_length 3 rs). lia.
  - intros i r p. unfold context_part.
    destruct (sr_content r) as [c|]; [|discriminate].
    destruct c as [|x c]; [discriminate|]. simpl py_truthy. cbv iota.
    intros H. injection H as <-. exists (x :: c). split; [reflexivity|].
    split; [discriminate|].
    rewrite <- (py_slice_prefix (x :: c) 300). reflexivity.
Qed.

(** X16: the search route lets no [Exception] escape; on an initialized
    service with a non-empty query, an [Exception] raised by the search
    becomes a 500 whose detail is the exception's message. *)
Theorem search_route_contains_errors initialized query top_k use_llm s :
  match fst (search_route initialized query top_k use_llm s) with
  | Raise e => is_Exception e = false
  | _ => True
  end /\
  (initialized = true -> py_truthy query = true -> forall e s',
     search query top_k use_llm s = (Raise e, s') -> is_Exception e = true ->
     search_route initialized query top_k use_llm s = (Ret (HTTPErr 500 (exn_msg e)), s')).
Proof.
  unfold search_route. split.
  - destruct initialized; [|exact I]. destruct (py_truthy query); [|exact I]. simpl.
    unfold route_try, internal_error.
    destruct (search query top_k use_llm s) as [[r|e|] s']; try exact I.
    destruct (is_Exception e) eqn:E; [exact I | exact E].
  - intros -> Hq e s' Hs He. rewrite Hq. simpl.
    unfold route_try, internal_error. rewrite Hs, He. reflexivity.
Qed.

(** X17: on an initialized service, [POST /api/v1/ingest] with a non-empty
    name and content always answers 500 with the [TypeError] message of the
    [chunk_overlap=] keyword, before any embedding or insert. *)
Theorem ingest_route_nonempty_fails doc content url s :
  py_truthy doc = true -> py_truthy content = true ->
  ingest_route true doc content url s = (Ret (HTTPErr 500 (exn_msg chunk_overlap_error)), s).
Proof.
  intros Hd Hc. unfold ingest_route, form_missing. rewrite Hd, Hc. cbn [app negb orb].
  rewrite ingest_document_raises. reflexivity.
Qed.

(** X18: on an initialized service, [POST /api/v1/ingest-file] answers 400
    when the upload is not valid UTF-8, and otherwise (an empty file
    included: this route has no emptiness check) 500 with the same
    [TypeError] message, before any embedding or insert. *)
Theorem ingest_file_route_outcome fname raw url s :
  ingest_file_route true fname raw url s =
    (Ret (match utf8_decode raw with
          | None => HTTPErr 400 (pys "File must be valid UTF-8 text")
          | Some _ => HTTPErr 500 (exn_msg chunk_overlap_error)
          end), s).
Proof.
  unfold ingest_file_route. simpl. unfold route_try, bind, lift.
  destruct (utf8_decode raw) as [c|]; [|reflexivity].
  rewrite ingest_document_raises. reflexivity.
Qed.


(** X20: the health route never raises (the probe's bare [except] catches
    everything): it reports ["healthy"] and [endee_connected] exactly when
    the Endee health request answered 200, ["degraded"] otherwise. *)
Theorem health_route_answer probe s :
  health_route true probe s =
    (Ret (Resp (mkHealth (if probe_healthy probe then pys "healthy" else pys "degraded")
                  true (probe_healthy probe))), s).
Proof.
  unfold health_route. simpl. unfold bind. rewrite health_check_run. reflexivity.
Qed.

End Pipeline.

(* ------------------------------------------------------------------ *)
(** ** Concrete runs *)

(** The 1000-character document of the spec's end-to-end example. *)
Definition doc1_content : pystr := repeat 97%N 1000.

Definition st0 : st := mkSt 0 0 [].

(** A store answering every search with the hits "a" (0.9) and "b" (0.8). *)
Definition two_hits (_ : pystr) (_ : unit) (_ : Z) : outcome (list search_result) :=
  Ret [mkResult (pys "a") 9 (Some (pys "first passage"));
       mkResult (pys "b") 8 (Some (pys "second passage"))].

(** An Answerer whose call raises [openai.APIError]. *)
Definition failing_answerer (_ : pystr) : outcome (option pystr) :=
  Raise (mkExn "APIError" (pys "service unavailable")).

(** Sample inputs for the client and route properties. *)
Definition ten_chars : pystr := pys "abcdefghij".

Definition local_client : endee_client :=
  endee_client_init (pys "http://localhost:8080/") (Some (pys "token")) 30.

(** A server answering every request with the same response. *)
Definition answering (r : http_response) : session := fun _ _ _ _ _ _ => Answered r.

Definition sample_vectors : list (list (pystr * json)) :=
  [[(pys "id", JStr (pys "a")); (pys "values", JArr [JNum 1; JNum 2])];
   [(pys "id", JStr (pys "b")); (pys "values", JArr [JNum 3; JNum 4]);
    (pys "metadata", JObj [(pys "content", JStr (pys "text"))])]].

(** C3 (code bug): chunking the 1000-character content with the configured
    [chunk_size = 512] and [chunk_overlap = 50] gives 3 chunks starting at
    0, 462 and 924, but [ingest_document] on that content raises [TypeError]
    (the [chunk_overlap=] keyword) instead of returning [chunks_added = 3]. *)
Theorem example_1000_chars :
  option_map (fun r => chunk_starts (fst r))
    (chunk_document 4 (pys "doc1") doc1_content
       (chunk_size default_settings) (chunk_overlap default_settings) 0)
    = Some [0; 462; 924] /\
  (forall vec index_name fuel embed_texts_impl store_insert s,
     ingest_document vec default_settings index_name fuel embed_texts_impl
       store_insert (pys "doc1") doc1_content None s
     = (Raise chunk_overlap_error, s)).
Proof.
  split; [vm_compute; reflexivity|].
  intros. apply ingest_document_raises.
Qed.



(** C5 counterexample: no single sentinel.  With the store returning hits,
    [generated_answer] is [None] without an Answerer and
    ["Error generating answer"] with a raising one. *)
Lemma search_no_single_sentinel :
  exists r1 r2 s1 s2,
    search unit default_settings (pys "documents") (fun _ => Ret tt) two_hits
      None (fun n => Z.of_nat n) (pys "test query") (Some 2) true st0 = (Ret r1, s1) /\
    search unit default_settings (pys "documents") (fun _ => Ret tt) two_hits
      (Some failing_answerer) (fun n => Z.of_nat n) (pys "test query") (Some 2) true st0
      = (Ret r2, s2) /\
    generated_answer r1 = None /\
    generated_answer r2 = Some (pys "Error generating answer") /\
    generated_answer r1 <> generated_answer r2.
Proof.
  do 4 eexists. split; [compute; reflexivity|]. split; [compute; reflexivity|].
  split; [reflexivity|]. split; [reflexivity|]. discriminate.
Qed.

(** C8 counterexample: a store that never answers 200 makes [initialize]
    raise a [RuntimeError], not an UnavailableError. *)
Lemma initialize_raises_runtime_error :
  exists e, fst (initialize (pys "documents") (fun _ => Status 503) ReqOk 384 st0)
              = Raise e /\
            exn_class e = "RuntimeError"%string /\
            exn_class e <> "UnavailableError"%string.
Proof.
  eexists. split; [compute; reflexivity|]. split; [reflexivity|]. discriminate.
Qed.

(* ------------------------------------------------------------------ *)
(** ** Witnesses *)

Lemma chunk_document_single_chunk_witness :
  0 < py_len (pys "ab") <= 5 /\
  chunk_document 1 (pys "doc") (pys "ab") 5 7 0 =
    Some ([mkChunk 0 (pys "ab") (mkMeta (pys "doc") 0 2 0 2)], 1%nat).
Proof.
  split; [unfold py_len; simpl; lia|].
  exact (chunk_document_single_chunk 1 (pys "doc") (pys "ab") 5 7 0
           ltac:(unfold py_len; simpl; lia) ltac:(lia)).
Defined.

Lemma chunk_document_coverage_witness :
  0 <= 50 < 512 /\
  exists r, chunk_document (S (List.length doc1_content)) (pys "doc1") doc1_content
              512 50 0 = Some r.
Proof.
  split; [lia|].
  exact (proj1 (chunk_document_coverage 0 (pys "doc1") doc1_content 512 50 0
                  ltac:(lia))).
Defined.

Lemma chunk_document_degenerate_witness :
  1 <= 1 /\ chunk_document 3 (pys "doc") (pys "abc") 1 1 0 = None.
Proof.
  split; [lia|].
  exact (proj2 (proj2 (chunk_document_degenerate 3 (pys "doc") (pys "abc") 1 1 0
                          ltac:(lia)))
           ltac:(vm_compute; reflexivity) ltac:(vm_compute; reflexivity)).
Defined.



Lemma search_llm_degrades_witness :
  exists resp s',
    search unit default_settings (pys "documents") (fun _ => Ret tt) two_hits
      (Some failing_answerer) (fun n => Z.of_nat n) (pys "test query") (Some 2) true st0
      = (Ret resp, s') /\
    rr_results resp = [mkResult (pys "a") 9 (Some (pys "first passage"));
                       mkResult (pys "b") 8 (Some (pys "second passage"))] /\
    generated_answer resp = Some (pys "Error generating answer").
Proof.
  exact (proj2 (search_llm_degrades unit default_settings (pys "documents")
                  (fun _ => Ret tt) two_hits (Some failing_answerer)
                  (fun n => Z.of_nat n) (pys "test query") (Some 2) tt
                  [mkResult (pys "a") 9 (Some (pys "first passage"));
                   mkResult (pys "b") 8 (Some (pys "second passage"))] st0
                  eq_refl eq_refl)
           failing_answerer (mkExn "APIError" (pys "service unavailable"))
           eq_refl ltac:(discriminate) eq_refl eq_refl).
Defined.

Lemma initialize_polls_witness :
  initialize (pys "documents") (fun _ => Status 503) ReqOk 384 st0 =
    (Raise (mkExn "RuntimeError" (pys "Endee server is not responding")),
     mkSt 0 0 (probe_trace max_retries)).
Proof.
  exact (proj1 (initialize_polls (pys "documents") (fun _ => Status 503) ReqOk 384 st0)
           (fun k _ => eq_refl)).
Defined.

Lemma chunk_document_positions_witness :
  exists chunks u' c,
    chunk_document 20 (pys "doc") ten_chars 4 1 0 = Some (chunks, u') /\
    nth_error chunks 2 = Some c /\
    start_pos (metadata c) = 6 /\ end_pos (metadata c) <= py_len ten_chars.
Proof.
  do 3 eexists. split; [compute; reflexivity|]. split; [compute; reflexivity|].
  destruct (chunk_document_positions 20 (pys "doc") ten_chars 4 1 0 _ _
              ltac:(lia) eq_refl 2 _ eq_refl) as [Hs [_ [He _]]].
  split; [etransitivity; [exact Hs | reflexivity] | exact He].
Defined.

Lemma chunk_document_contents_witness :
  exists chunks u' c,
    chunk_document 20 (pys "doc") ten_chars 4 1 0 = Some (chunks, u') /\
    In c chunks /\
    chunk_content c = py_slice ten_chars (start_pos (metadata c)) (end_pos (metadata c)).
Proof.
  do 3 eexists. split; [compute; reflexivity|]. split; [left; reflexivity|].
  exact (proj1 (chunk_document_contents 20 (pys "doc") ten_chars 4 1 0 _ _
                  ltac:(lia) eq_refl _ (or_introl eq_refl))).
Defined.

Lemma chunk_document_ids_witness :
  exists chunks u',
    chunk_document 20 (pys "doc") ten_chars 4 1 7 = Some (chunks, u') /\
    map chunk_id chunks = seq 7 (List.length chunks) /\ u' = (7 + List.length chunks)%nat.
Proof.
  do 2 eexists. split; [compute; reflexivity|].
  exact (chunk_document_ids 20 (pys "doc") ten_chars 4 1 7 _ _ ltac:(lia) eq_refl).
Defined.

Lemma chunk_document_reassemble_witness :
  exists chunks u',
    chunk_document 20 (pys "doc") ten_chars 4 1 0 = Some (chunks, u') /\
    reassemble 3 chunks = ten_chars.
Proof.
  do 2 eexists. split; [compute; reflexivity|].
  exact (chunk_document_reassemble 20 (pys "doc") ten_chars 4 1 0 _ _ ltac:(lia) eq_refl).
Defined.

Lemma client_missing_key_defaults_witness :
  raise_for_status_fails 204 = false /\
  client_list_indices local_client (answering (mkHttpResponse 204 false [] None)) = Ret (JArr []) /\
  client_search local_client (answering (mkHttpResponse 204 false [] None)) (pys "documents")
    (JArr [JNum 1]) 5 None = Ret (JArr []) /\
  client_get_vector local_client (answering (mkHttpResponse 204 false [] None)) (pys "documents")
    (pys "a") = Ret JNull.
Proof.
  split; [reflexivity|].
  exact (client_missing_key_defaults local_client (answering (mkHttpResponse 204 false [] None))
           (mkHttpResponse 204 false [] None) (pys "documents") (JArr [JNum 1]) 5 None (pys "a")
           (fun _ _ _ _ _ _ => eq_refl) eq_refl (or_introl eq_refl)).
Defined.

Lemma client_error_status_witness :
  client_get_vector local_client (answering (mkHttpResponse 404 false (pys "missing") None))
    (pys "documents") (pys "a") = Ret JNull /\
  client_insert local_client (answering (mkHttpResponse 404 false (pys "missing") None))
    (pys "documents") sample_vectors = Raise (http_error 404) /\
  client_list_indices local_client (answering (mkHttpResponse 503 false (pys "busy") None))
    = Raise retry_error /\
  client_insert local_client (answering (mkHttpResponse 503 false (pys "busy") None))
    (pys "documents") sample_vectors = Raise (http_error 503).
Proof.
  destruct (client_error_status local_client
              (answering (mkHttpResponse 404 false (pys "missing") None))
              (mkHttpResponse 404 false (pys "missing") None) (pys "documents") (pys "a")
              (JArr []) 5 None sample_vectors _
              (fun _ _ _ _ _ _ => eq_refl) eq_refl eq_refl)
    as [Hins [_ [_ [_ [_ [_ Hget]]]]]].
  destruct (client_error_status local_client
              (answering (mkHttpResponse 503 false (pys "busy") None))
              (mkHttpResponse 503 false (pys "busy") None) (pys "documents") (pys "a")
              (JArr []) 5 None sample_vectors _
              (fun _ _ _ _ _ _ => eq_refl) eq_refl eq_refl)
    as [Hins' [_ [Hlist _]]].
  split; [exact Hget|]. split; [exact Hins|]. split; [exact Hlist | exact Hins'].
Defined.

Lemma insert_entries_preserve_witness :
  exists es, insert_entries sample_vectors = Ret es /\ List.length es = 2%nat.
Proof.
  eexists. split; [compute; reflexivity|].
  exact (proj1 (insert_entries_preserve sample_vectors _ eq_refl)).
Defined.

Lemma client_insert_key_error_witness :
  exists key, (key = "id" \/ key = "values")%string /\
    forall sess, client_insert local_client sess (pys "documents")
                   [[(pys "id", JStr (pys "a"))]] = Raise (key_error key).
Proof.
  apply client_insert_key_error. exists [(pys "id", JStr (pys "a"))].
  split; [left; reflexivity | right; reflexivity].
Defined.


Lemma search_without_llm_witness :
  exists resp s',
    search unit default_settings (pys "documents") (fun _ => Ret tt) two_hits None
      (fun n => Z.of_nat n) (pys "test query") (Some 2) true st0 = (Ret resp, s') /\
    generated_answer resp = None /\ result_count resp = 2%nat /\
    events s' = [EvEmbedText; EvSearch (pys "documents") 2].
Proof.
  do 2 eexists. split.
  - exact (search_without_llm unit default_settings (pys "documents") (fun _ => Ret tt)
             two_hits None (fun n => Z.of_nat n) (pys "test query") (Some 2) true tt _ st0
             eq_refl eq_refl (or_intror (or_intror eq_refl))).
  - repeat split.
Defined.

Lemma ingest_route_nonempty_fails_witness :
  ingest_route unit default_settings (pys "documents") 100 (fun _ => Ret [])
    (fun _ _ => Ret tt) true (pys "doc") (pys "some text") None st0
  = (Ret (HTTPErr 500 (exn_msg chunk_overlap_error)), st0).
Proof.
  exact (ingest_route_nonempty_fails unit default_settings (pys "documents") 100
           (fun _ => Ret []) (fun _ _ => Ret tt) (pys "doc") (pys "some text") None st0
           eq_refl eq_refl).
Defined.

